(** * react-gimbal: the geometry helpers and the drag engine

    A shallow embedding of [src/utils.ts] and of the handlers of the
    [Gimbal] component of [src/gimbal.tsx], with the properties the
    specification states about them.

    Number model.  Lengths in pixels are integers ([Z]): every length the
    component produces itself is a [clientWidth]/[clientHeight], a
    [clientX]/[clientY], or the result of [Math.round] / [Math.floor], and
    the pixel fields of the rules are taken as whole pixels.  Percentages
    are rationals ([Q]).  Arithmetic is exact: the rounding error of IEEE
    doubles, [NaN] and the infinities are outside the model (a division by
    a zero limit is therefore not meaningful here and no statement relies
    on it).  An optional parameter or an optional field of a rule is an
    [option]; [None] is JavaScript's [undefined].

    The integers stand for the numbers of the code as long as these are
    whole and of magnitude at most 2^53, where the comparisons, additions
    and subtractions of binary64 are exact.  Outside that range the code
    rounds; module [Binary64] has the offset computation on binary64
    numbers themselves, to show where the two part. *)

From Stdlib Require Import ZArith QArith Qround.
From Stdlib Require Import List String.
From Stdlib Require Import DecimalString DecimalPos DecimalZ.
From Stdlib Require Import PrimFloat SpecFloat FloatOps.
From Stdlib Require Import Lia.
Import ListNotations.

Local Open Scope Z_scope.

(** ** JavaScript primitives used by the sources *)

Module JS.

(** [Math.round]: the nearest integer, a tie going towards +infinity. *)
Definition Math_round (x : Q) : Z := Qfloor (x + (1 # 2)).

(** [Math.floor]. *)
Definition Math_floor (x : Q) : Z := Qfloor x.

(** A parameter default [p = d]: used when the argument is [undefined]. *)
Definition orDefault {A : Type} (o : option A) (d : A) : A :=
  match o with
  | Some a => a
  | None => d
  end.

(** The text of an integral number inside a template literal. *)
Definition numberToString (n : Z) : string :=
  NilZero.string_of_int (Z.to_int n).

(** Truthiness of an optional integral number: [undefined] and [0] are falsy. *)
Definition truthyZ (o : option Z) : bool :=
  match o with
  | Some n => negb (n =? 0)
  | None => false
  end.

(** Truthiness of an optional rational number. *)
Definition truthyQ (o : option Q) : bool :=
  match o with
  | Some q => negb (Qeq_bool q 0)
  | None => false
  end.

End JS.

(** ** [src/types.ts] *)

Inductive Prefer : Type := percent_ | pixels_.

Definition Prefer_eqb (a b : Prefer) : bool :=
  match a, b with
  | percent_, percent_ => true
  | pixels_, pixels_ => true
  | _, _ => false
  end.

(** [preferred === 'tag'] for an optional preference. *)
Definition prefersTo (preferred : option Prefer) (tag : Prefer) : bool :=
  match preferred with
  | Some p => Prefer_eqb p tag
  | None => false
  end.

Record IGimbalEvent : Type := mkEvent {
  after : string;
  before : string
}.

(** [Partial<IGimbalRule>]: every field may be absent. *)
Record IGimbalRule : Type := mkRule {
  percent : option Q;
  pixels : option Z;
  prefer : option Prefer
}.

(** The empty rule [{}]. *)
Definition noRule : IGimbalRule := mkRule None None None.

Inductive Direction : Type :=
  | horizontal
  | horizontal_reverse
  | vertical
  | vertical_reverse.

(** ** [src/utils.ts] *)

Module Utils.
Import JS.

(** Returns value respecting the maximum and minimum limits. *)
Definition getRangedValue (value maximum minimum : Z) : Z :=
  if value >? minimum
  then (if value <? maximum then value else maximum)
  else minimum.

(** What the helpers read of a DOM element: its client size on both axes
    and the top-left corner of its bounding client rectangle. *)
Record HTMLElement : Type := mkElement {
  clientHeight : Z;
  clientWidth : Z;
  rectTop : Q;
  rectLeft : Q
}.

Definition getSizeAndOffset (isVertical : bool)
    (element : option HTMLElement) : Z * Z :=
  match element with
  | None => (0, 0)
  | Some e =>
      ((if isVertical then clientHeight e else clientWidth e),
       Math_floor (if isVertical then rectTop e else rectLeft e))
  end.

Definition getPercentageFromPixels (pixels limit : Z) : Q :=
  (inject_Z (Math_round ((inject_Z pixels / inject_Z limit) * 1000)) / 10)%Q.

Definition getPixelsFromPercentage (percentage : Q) (limit : Z) : Z :=
  Math_round (inject_Z limit * (percentage / 100))%Q.

Definition getPreferredValue (valueA valueB : Z) (preferLarger : bool) : Z :=
  if preferLarger
  then (if valueA >? valueB then valueA else valueB)
  else (if valueA >? valueB then valueB else valueA).

Definition getAbsoluteBounds
    (isReverse : bool) (absoluteLimit gimbalOffset : Z)
    (absoluteMaxPx' absoluteMinPx' : option Z)
    (relativeMaxPc' relativeMinPc' : option Q)
    (preferredMax preferredMin : option Prefer) : Z * Z * Z :=
  let absoluteMaxPx := orDefault absoluteMaxPx' absoluteLimit in
  let absoluteMinPx := orDefault absoluteMinPx' 0 in
  let relativeMaxPc := orDefault relativeMaxPc' 100%Q in
  let relativeMinPc := orDefault relativeMinPc' 0%Q in
  (* Calculate absolutes based on them being a proportion of the Limit *)
  let absoluteMaxPc := getPixelsFromPercentage relativeMaxPc absoluteLimit in
  let absoluteMinPc := getPixelsFromPercentage relativeMinPc absoluteLimit in
  (* Derive actual Minimum and Maximum values *)
  let maximum :=
    getPreferredValue absoluteMaxPc absoluteMaxPx
      (prefersTo preferredMax pixels_) in
  let minimum :=
    getPreferredValue absoluteMinPc absoluteMinPx
      (prefersTo preferredMin percent_) in
  (* validated against true limits *)
  let validatedMaximum :=
    if maximum >? absoluteLimit then absoluteLimit else maximum in
  let validatedMinimum := if minimum >? 0 then minimum else 0 in
  ((if isReverse then absoluteLimit - validatedMinimum else validatedMaximum),
   (if isReverse then absoluteLimit - validatedMaximum else validatedMinimum),
   gimbalOffset).

(** Returns the Before and After sizes as discrete values totalling the
    limit. *)
Definition getOffsets (limit position maximum minimum : Z)
    (factor' : option Z) : IGimbalEvent :=
  let factor := orDefault factor' 0 in
  let offset := getRangedValue position maximum minimum - factor in
  {| after := (numberToString (limit - offset) ++ "px")%string;
     before := (numberToString offset ++ "px")%string |}.

End Utils.

(** ** The offset computation on binary64 numbers

    The same two functions of [src/utils.ts] with JavaScript's numbers as
    they are: every [number] is a binary64 value and every subtraction is
    rounded to the nearest one. *)

Module Binary64.
Import JS.

(** Returns value respecting the maximum and minimum limits. *)
Definition getRangedValue (value maximum minimum : float) : float :=
  if PrimFloat.ltb minimum value
  then (if PrimFloat.ltb value maximum then value else maximum)
  else minimum.

(** The two numbers [getOffsets] formats: [limit - offset] for [after] and
    [offset] for [before]. *)
Definition offsetValues (limit position maximum minimum : float)
    (factor' : option float) : float * float :=
  let factor := orDefault factor' 0%float in
  let offset :=
    PrimFloat.sub (getRangedValue position maximum minimum) factor in
  (PrimFloat.sub limit offset, offset).

(** The whole numbers that binary64 computes with exactly. *)
Definition exactInteger (n : Z) : Prop := Z.abs n <= 2 ^ 53.

Definition exactIntegerb (n : Z) : bool := Z.abs n <=? 2 ^ 53.

(** The binary64 number nearest to a whole number. *)
Definition ofInteger (n : Z) : float :=
  SF2Prim (binary_normalize prec emax n 0 false).

(** The whole number a binary64 value denotes, if it denotes one. *)
Definition toInteger (x : float) : option Z :=
  match Prim2SF x with
  | S754_zero _ => Some 0
  | S754_finite s m e =>
      let sign := if s then -1 else 1 in
      if 0 <=? e then Some (sign * (Z.pos m * 2 ^ e))
      else if Z.pos m mod 2 ^ (- e) =? 0
           then Some (sign * (Z.pos m / 2 ^ (- e)))
           else None
  | _ => None
  end.

(** The text of a number inside a template literal, for the whole numbers
    of magnitude at most 2^53, which are written with all their digits; the
    text of the other numbers (a fraction, rounded digits or an exponent) is
    not modelled. *)
Definition numberToString (x : float) : option string :=
  match toInteger x with
  | Some n => if Z.abs n <=? 2 ^ 53 then Some (JS.numberToString n) else None
  | None => None
  end.

(** Returns the Before and After sizes as discrete values totalling the
    limit. *)
Definition getOffsets (limit position maximum minimum : float)
    (factor : option float) : option IGimbalEvent :=
  let '(afterValue, beforeValue) :=
    offsetValues limit position maximum minimum factor in
  match numberToString afterValue, numberToString beforeValue with
  | Some a, Some b =>
      Some {| after := (a ++ "px")%string; before := (b ++ "px")%string |}
  | _, _ => None
  end.

End Binary64.

(** ** [src/gimbal.tsx] *)

Module MouseState.
Inductive t : Type := ACTIVE | IDLE | GIMBAL_DOWN | GLOBAL_DOWN | GLOBAL_UP.

Definition eqb (a b : t) : bool :=
  match a, b with
  | ACTIVE, ACTIVE | IDLE, IDLE | GIMBAL_DOWN, GIMBAL_DOWN
  | GLOBAL_DOWN, GLOBAL_DOWN | GLOBAL_UP, GLOBAL_UP => true
  | _, _ => false
  end.
End MouseState.

Module DragState.
Inductive t : Type := DRAG | IDLE | WAIT.

Definition eqb (a b : t) : bool :=
  match a, b with
  | DRAG, DRAG | IDLE, IDLE | WAIT, WAIT => true
  | _, _ => false
  end.
End DragState.

Module Gimbal.
Import JS Utils.

(** The properties of the component that the handlers read.  The cursor,
    the class name and the children only reach the rendered element. *)
Record Props : Type := mkProps {
  defaultPosition : IGimbalRule;
  direction : Direction;
  maximum : IGimbalRule;
  minimum : IGimbalRule
}.

(** The mutable cells of one instance ([useRef]), and the number of
    [setTimeout] callbacks of [setActive] that have not fired yet. *)
Record Refs : Type := mkRefs {
  bound : Z * Z * Z;
  click : DragState.t;
  divEl : option HTMLElement;
  limit : Z * Z;
  mouse : MouseState.t;
  timeouts : nat
}.

Definition initialRefs : Refs :=
  {| bound := (0, 0, 0); click := DragState.IDLE; divEl := None;
     limit := (0, 0); mouse := MouseState.IDLE; timeouts := 0 |}.

Definition setBound (r : Refs) (b : Z * Z * Z) : Refs :=
  {| bound := b; click := click r; divEl := divEl r; limit := limit r;
     mouse := mouse r; timeouts := timeouts r |}.

Definition setClick (r : Refs) (c : DragState.t) : Refs :=
  {| bound := bound r; click := c; divEl := divEl r; limit := limit r;
     mouse := mouse r; timeouts := timeouts r |}.

Definition setDivEl (r : Refs) (e : option HTMLElement) : Refs :=
  {| bound := bound r; click := click r; divEl := e; limit := limit r;
     mouse := mouse r; timeouts := timeouts r |}.

Definition setLimit (r : Refs) (l : Z * Z) : Refs :=
  {| bound := bound r; click := click r; divEl := divEl r; limit := l;
     mouse := mouse r; timeouts := timeouts r |}.

Definition setMouse (r : Refs) (m : MouseState.t) : Refs :=
  {| bound := bound r; click := click r; divEl := divEl r; limit := limit r;
     mouse := m; timeouts := timeouts r |}.

Definition setTimeouts (r : Refs) (n : nat) : Refs :=
  {| bound := bound r; click := click r; divEl := divEl r; limit := limit r;
     mouse := mouse r; timeouts := n |}.

(** The coordinates a [mousemove] event carries. *)
Record MouseEvent : Type := mkMouseEvent {
  clientX : Z;
  clientY : Z
}.

Section Instance.

Variable props : Props.

Definition isReverse : bool :=
  match direction props with
  | horizontal_reverse | vertical_reverse => true
  | _ => false
  end.

Definition isVertical : bool :=
  match direction props with
  | vertical | vertical_reverse => true
  | _ => false
  end.

Definition getResizedValues (r : Refs) (position : Z) : IGimbalEvent :=
  let '(max, min, factor) := bound r in
  getOffsets (fst (limit r)) (position - fst (limit r)) max min (Some factor).

(** Sets the Gimbal to actively track the user's mouse; the timeout it
    schedules is counted in [timeouts]. *)
Definition setActive (r : Refs) : Refs :=
  let r := setClick r DragState.WAIT in
  let r := setMouse r MouseState.ACTIVE in
  setTimeouts r (S (timeouts r)).

(** The callback [setActive] hands to [setTimeout]. *)
Definition activeTimeout (r : Refs) : Refs :=
  if DragState.eqb (click r) DragState.WAIT
  then setClick r DragState.IDLE
  else r.

(** Returns the gimbal to a ready, yet idle, state. *)
Definition setIdle (r : Refs) : Refs := setMouse r MouseState.IDLE.

Definition getSizeOf : option HTMLElement -> Z * Z :=
  getSizeAndOffset isVertical.

(** Handlers return the new cells and the events handed to [onResize]. *)
Definition handleDoubleClick (r : Refs) : Refs * list IGimbalEvent :=
  let r := setClick r DragState.IDLE in
  if negb (truthyQ (percent (defaultPosition props))
           || truthyZ (pixels (defaultPosition props)))
  then (r, [])
  else
    let position :=
      match pixels (defaultPosition props) with
      | Some px => px
      | None =>
          getPixelsFromPercentage
            (match percent (defaultPosition props) with
             | Some pc => pc
             | None => 50%Q
             end)
            (fst (limit r))
      end in
    (r, [getResizedValues r position]).

Definition handleMouseEvent (mouseEvent : MouseState.t) (r : Refs) : Refs :=
  match mouseEvent with
  | MouseState.GIMBAL_DOWN =>
      if MouseState.eqb (mouse r) MouseState.IDLE then setActive r else r
  | MouseState.GLOBAL_UP =>
      if negb (MouseState.eqb (mouse r) MouseState.ACTIVE) then r
      else if DragState.eqb (click r) DragState.WAIT
           then setClick r DragState.DRAG
           else setIdle r
  | MouseState.GLOBAL_DOWN =>
      if MouseState.eqb (mouse r) MouseState.ACTIVE then setIdle r else r
  | _ => r
  end.

(** The event is handed to [onResize] through [requestAnimationFrame]. *)
Definition handleMouseMovement (event : MouseEvent) (r : Refs)
    : list IGimbalEvent :=
  if MouseState.eqb (mouse r) MouseState.IDLE then []
  else [getResizedValues r (if isVertical then clientY event
                            else clientX event)].

Definition handleWindowResize (anchorElement : option HTMLElement)
    (r : Refs) : Refs :=
  setLimit r (getSizeOf anchorElement).

(** [rule.prefer || (rule.pixels === undefined ? 'percent' : 'pixels')]. *)
Definition preferred (rule : IGimbalRule) : Prefer :=
  match prefer rule with
  | Some p => p
  | None => match pixels rule with None => percent_ | Some _ => pixels_ end
  end.

(** The effect that computes the Min and Max bounds of the gimbal. *)
Definition boundsEffect (r : Refs) : Refs :=
  let maxPreferred := preferred (maximum props) in
  let minPreferred := preferred (minimum props) in
  let divElOffset := fst (getSizeOf (divEl r)) in
  let gimbalOffset :=
    Math_floor (if divElOffset =? 0 then 0 else inject_Z divElOffset / 2)%Q in
  setBound r
    (getAbsoluteBounds isReverse (fst (limit r) + gimbalOffset) gimbalOffset
       (pixels (maximum props)) (pixels (minimum props))
       (percent (maximum props)) (percent (minimum props))
       (Some maxPreferred) (Some minPreferred)).

(** The cells after the first render: the handle is attached to [divEl],
    then the two effects run in the order they are declared. *)
Definition mounted (anchorElement handle : option HTMLElement) : Refs :=
  boundsEffect (handleWindowResize anchorElement (setDivEl initialRefs handle)).

(** What the host delivers to one instance. *)
Inductive Input : Type :=
  | HandleDown                                  (* mousedown on the handle *)
  | WindowDown                                  (* mousedown elsewhere *)
  | WindowUp                                    (* mouseup anywhere *)
  | WindowMove (event : MouseEvent)             (* mousemove anywhere *)
  | DoubleClick                                 (* dblclick on the handle *)
  | TimerFires                                  (* a timer of setActive fires *)
  | WindowResize (anchorElement : option HTMLElement)
  | Render.                                     (* the bounds effect re-runs *)

Definition step (r : Refs) (i : Input) : Refs * list IGimbalEvent :=
  match i with
  | HandleDown => (handleMouseEvent MouseState.GIMBAL_DOWN r, [])
  | WindowDown => (handleMouseEvent MouseState.GLOBAL_DOWN r, [])
  | WindowUp => (handleMouseEvent MouseState.GLOBAL_UP r, [])
  | WindowMove event => (r, handleMouseMovement event r)
  | DoubleClick => handleDoubleClick r
  | TimerFires =>
      match timeouts r with
      | O => (r, [])
      | S n => (activeTimeout (setTimeouts r n), [])
      end
  | WindowResize anchorElement => (handleWindowResize anchorElement r, [])
  | Render => (boundsEffect r, [])
  end.

(** Runs a sequence of inputs, collecting the emitted events in order. *)
Fixpoint run (r : Refs) (inputs : list Input) : Refs * list IGimbalEvent :=
  match inputs with
  | [] => (r, [])
  | i :: rest =>
      let '(r1, out1) := step r i in
      let '(r2, out2) := run r1 rest in
      (r2, out1 ++ out2)
  end.

(** The states an instance can be in. *)
Inductive reachable (anchorElement handle : option HTMLElement)
    : Refs -> Prop :=
  | reachable_mounted :
      reachable anchorElement handle (mounted anchorElement handle)
  | reachable_step r i :
      reachable anchorElement handle r ->
      reachable anchorElement handle (fst (step r i)).

End Instance.

End Gimbal.

(** ** Vocabulary of the specification

    Names for the quantities the specification talks about, each defined
    through the code above. *)

Module Spec.
Import JS Utils.

(** The components of a resolved [max, min, offset] triple. *)
Definition boundsMaximum (b : Z * Z * Z) : Z := fst (fst b).
Definition boundsMinimum (b : Z * Z * Z) : Z := snd (fst b).
Definition boundsOffset (b : Z * Z * Z) : Z := snd b.

(** The constant [maximum] of [getAbsoluteBounds]: the maximum selected
    from the percent-derived and the pixel candidate, before validation. *)
Definition effectiveMaximum (absoluteMaxPc absoluteMaxPx : Z)
    (preferredMax : option Prefer) : Z :=
  getPreferredValue absoluteMaxPc absoluteMaxPx
    (prefersTo preferredMax pixels_).

(** The constant [minimum] of [getAbsoluteBounds], before validation. *)
Definition effectiveMinimum (absoluteMinPc absoluteMinPx : Z)
    (preferredMin : option Prefer) : Z :=
  getPreferredValue absoluteMinPc absoluteMinPx
    (prefersTo preferredMin percent_).

(** The two candidates of each bound, as [getAbsoluteBounds] computes them
    from its optional arguments. *)
Definition candidateMaxPc (absoluteLimit : Z) (relativeMaxPc : option Q) : Z :=
  getPixelsFromPercentage (orDefault relativeMaxPc 100%Q) absoluteLimit.

Definition candidateMaxPx (absoluteLimit : Z) (absoluteMaxPx : option Z) : Z :=
  orDefault absoluteMaxPx absoluteLimit.

Definition candidateMinPc (absoluteLimit : Z) (relativeMinPc : option Q) : Z :=
  getPixelsFromPercentage (orDefault relativeMinPc 0%Q) absoluteLimit.

Definition candidateMinPx (absoluteMinPx : option Z) : Z :=
  orDefault absoluteMinPx 0.

(** Removes a trailing [px]; [None] when the text does not end in it. *)
Fixpoint stripPx (s : string) : option string :=
  if String.eqb s "px" then Some EmptyString
  else match s with
       | EmptyString => None
       | String c rest =>
           match stripPx rest with
           | Some body => Some (String c body)
           | None => None
           end
       end.

(** The numeric value of a pixel length such as [120px]. *)
Definition pxValue (s : string) : option Z :=
  match stripPx s with
  | Some body =>
      match NilZero.int_of_string body with
      | Some d => Some (Z.of_int d)
      | None => None
      end
  | None => None
  end.


End Spec.

(** ** The scenarios of the specification *)

Module Scenario.
Import Utils Gimbal.

(** A container of the given width whose leading edge is at the origin. *)
Definition container (width : Z) : option HTMLElement :=
  Some {| clientHeight := 0; clientWidth := width;
          rectTop := 0%Q; rectLeft := 0%Q |}.

(** [maximum={percent:80}], [minimum={pixels:50}], forward axis. *)
Definition boundedProps : Props :=
  {| defaultPosition := noRule;
     direction := horizontal;
     maximum := {| percent := Some 80%Q; pixels := None; prefer := None |};
     minimum := {| percent := None; pixels := Some 50; prefer := None |} |}.

(** [default={percent:50}] and no other constraint. *)
Definition resetProps : Props :=
  {| defaultPosition :=
       {| percent := Some 50%Q; pixels := None; prefer := None |};
     direction := horizontal;
     maximum := noRule;
     minimum := noRule |}.

(** [default={pixels:0}] and no other constraint. *)
Definition zeroDefaultProps : Props :=
  {| defaultPosition :=
       {| percent := None; pixels := Some 0; prefer := None |};
     direction := horizontal;
     maximum := noRule;
     minimum := noRule |}.

End Scenario.

(** ** Traces of inputs *)

Module Trace.
Import Gimbal.

(** The inputs whose handlers call [onResize]. *)
Definition emitter (i : Input) : bool :=
  match i with
  | WindowMove _ | DoubleClick => true
  | _ => false
  end.

(** How many inputs of a sequence can hand an event to [onResize]. *)
Definition emitters (inputs : list Input) : nat :=
  List.length (List.filter emitter inputs).

(** Inputs during which the anchor element stays missing. *)
Definition anchorMissing (i : Input) : bool :=
  match i with
  | WindowResize (Some _) => false
  | _ => true
  end.

(** The event of a container without size. *)
Definition collapsed : IGimbalEvent := {| after := "0px"; before := "0px" |}.

(** The cells of an instance whose anchor and handle are missing. *)
Definition collapsedRefs (r : Refs) : Prop :=
  limit r = (0, 0) /\ divEl r = None /\ bound r = (0, 0, 0).

End Trace.

(** ** Further configurations *)

Module Cases.
Import Utils Gimbal.

(** [maximum={pixels:300}], [minimum={pixels:50}], reversed axis. *)
Definition pixelRulesProps : Props :=
  {| defaultPosition := noRule;
     direction := horizontal_reverse;
     maximum := {| percent := None; pixels := Some 300; prefer := None |};
     minimum := {| percent := None; pixels := Some 50; prefer := None |} |}.

(** [default={percent:25, pixels:120}] with percent rules. *)
Definition bothDefaultsProps : Props :=
  {| defaultPosition :=
       {| percent := Some 25%Q; pixels := Some 120; prefer := None |};
     direction := vertical;
     maximum := {| percent := Some 80%Q; pixels := None; prefer := None |};
     minimum := {| percent := Some 10%Q; pixels := None; prefer := None |} |}.

(** A handle 9 pixels thick. *)
Definition handle9 : option HTMLElement :=
  Some {| clientHeight := 9; clientWidth := 9;
          rectTop := 0%Q; rectLeft := 0%Q |}.

Definition pointerAt (x y : Z) : MouseEvent :=
  {| clientX := x; clientY := y |}.

End Cases.

(** ** Integers against binary64 *)

Module Agreement.
Import Utils.

Definition eventEqb (a b : IGimbalEvent) : bool :=
  (String.eqb (after a) (after b) && String.eqb (before a) (before b))%bool.

(** Whether, at whole inputs whose offset and limit less offset are
    computed exactly, the binary64 computation emits the event of the
    integer one. *)
Definition agreesAt (limit position maximum minimum factor : Z) : bool :=
  let offset := getRangedValue position maximum minimum - factor in
  if (Binary64.exactIntegerb offset
      && Binary64.exactIntegerb (limit - offset))%bool
  then match Binary64.getOffsets
               (Binary64.ofInteger limit) (Binary64.ofInteger position)
               (Binary64.ofInteger maximum) (Binary64.ofInteger minimum)
               (Some (Binary64.ofInteger factor)) with
       | Some e =>
           eventEqb e (getOffsets limit position maximum minimum (Some factor))
       | None => false
       end
  else true.

(** Whole numbers up to both ends of the exact range. *)
Definition grid : list Z :=
  [- 2 ^ 53; - 2 ^ 53 + 1; -640; -1; 0; 3; 500; 2 ^ 53 - 1; 2 ^ 53].

Definition agreesOnGrid : bool :=
  forallb (fun limit =>
  forallb (fun position =>
  forallb (fun maximum =>
  forallb (fun minimum =>
  forallb (fun factor => agreesAt limit position maximum minimum factor)
    grid) grid) grid) grid) grid.

End Agreement.

(** * Properties *)

Import JS Utils Spec.

Lemma mouse_eqb_eq (a b : MouseState.t) : MouseState.eqb a b = true <-> a = b.
Proof. destruct a, b; simpl; split; intro H; congruence. Qed.

Lemma drag_eqb_eq (a b : DragState.t) : DragState.eqb a b = true <-> a = b.
Proof. destruct a, b; simpl; split; intro H; congruence. Qed.

(** ** Selection and clamping *)

Lemma getPreferredValue_larger (a b : Z) : getPreferredValue a b true = Z.max a b.
Proof.
  unfold getPreferredValue. destruct (Z.gtb_spec a b); lia.
Qed.

Lemma getPreferredValue_smaller (a b : Z) : getPreferredValue a b false = Z.min a b.
Proof.
  unfold getPreferredValue. destruct (Z.gtb_spec a b); lia.
Qed.

(** The forward triple is the effective maximum capped by the limit and the
    effective minimum raised to zero. *)
Lemma getAbsoluteBounds_forward
    (absoluteLimit gimbalOffset : Z) (maxPx minPx : option Z)
    (maxPc minPc : option Q) (preferredMax preferredMin : option Prefer) :
  getAbsoluteBounds false absoluteLimit gimbalOffset
    maxPx minPx maxPc minPc preferredMax preferredMin
  = (Z.min absoluteLimit
       (effectiveMaximum (candidateMaxPc absoluteLimit maxPc)
          (candidateMaxPx absoluteLimit maxPx) preferredMax),
     Z.max 0
       (effectiveMinimum (candidateMinPc absoluteLimit minPc)
          (candidateMinPx minPx) preferredMin),
     gimbalOffset).
Proof.
  unfold getAbsoluteBounds, effectiveMaximum, effectiveMinimum,
    candidateMaxPc, candidateMaxPx, candidateMinPc, candidateMinPx.
  cbv zeta.
  repeat match goal with
         | |- context [?a >? ?b] => destruct (Z.gtb_spec a b)
         end; repeat f_equal; lia.
Qed.

(** The reversed triple complements the forward one against the limit. *)
Lemma getAbsoluteBounds_reverse
    (absoluteLimit gimbalOffset : Z) (maxPx minPx : option Z)
    (maxPc minPc : option Q) (preferredMax preferredMin : option Prefer) :
  getAbsoluteBounds true absoluteLimit gimbalOffset
    maxPx minPx maxPc minPc preferredMax preferredMin
  = (absoluteLimit
       - Z.max 0
           (effectiveMinimum (candidateMinPc absoluteLimit minPc)
              (candidateMinPx minPx) preferredMin),
     absoluteLimit
       - Z.min absoluteLimit
           (effectiveMaximum (candidateMaxPc absoluteLimit maxPc)
              (candidateMaxPx absoluteLimit maxPx) preferredMax),
     gimbalOffset).
Proof.
  unfold getAbsoluteBounds, effectiveMaximum, effectiveMinimum,
    candidateMaxPc, candidateMaxPx, candidateMinPc, candidateMinPx.
  cbv zeta.
  repeat match goal with
         | |- context [?a >? ?b] => destruct (Z.gtb_spec a b)
         end; repeat f_equal; lia.
Qed.

(** C2, as stated, fails: with the candidates 400 (from the percentage) and
    500 (pixels) and [preferMax = 'percent'] the effective maximum is the
    smaller candidate, 400. *)
Lemma C2_larger_always_counterexample :
  effectiveMaximum 400 500 (Some percent_) = 400
  /\ effectiveMaximum 400 500 (Some percent_) <> Z.max 400 500.
Proof. split; [reflexivity | vm_compute; discriminate]. Qed.

(** C2, amended: the effective maximum is the larger of the two candidates
    when [preferMax] is ['pixels'] and the smaller of the two for every other
    value of [preferMax] (and this is the value [getAbsoluteBounds] caps by
    the limit). *)
Theorem C2_effective_maximum (absoluteMaxPc absoluteMaxPx : Z)
    (preferredMax : option Prefer) :
  effectiveMaximum absoluteMaxPc absoluteMaxPx preferredMax
  = match preferredMax with
    | Some pixels_ => Z.max absoluteMaxPc absoluteMaxPx
    | _ => Z.min absoluteMaxPc absoluteMaxPx
    end.
Proof.
  unfold effectiveMaximum.
  destruct preferredMax as [[|]|]; cbn [prefersTo Prefer_eqb].
  - apply getPreferredValue_smaller.
  - apply getPreferredValue_larger.
  - apply getPreferredValue_smaller.
Qed.

(** C4, as stated, fails: with the inverted bounds minimum 5, maximum 3, the
    value 10 is mapped to the maximum 3. *)
Lemma C4_inverted_bounds_counterexample :
  5 > 3 /\ getRangedValue 10 3 5 = 3 /\ getRangedValue 10 3 5 <> 5.
Proof. repeat split; vm_compute; discriminate. Qed.

(** C4, amended: when minimum > maximum the range-clamp helper returns the
    minimum for every value not above the minimum and the maximum for every
    value above it. *)
Theorem C4_inverted_bounds (value maximum minimum : Z) :
  minimum > maximum ->
  (value <= minimum -> getRangedValue value maximum minimum = minimum)
  /\ (value > minimum -> getRangedValue value maximum minimum = maximum).
Proof.
  intros Hinv. unfold getRangedValue.
  destruct (Z.gtb_spec value minimum), (Z.ltb_spec value maximum);
    repeat split; intros; lia.
Qed.

Lemma C4_inverted_bounds_witness :
  5 > 3
  /\ (10 <= 5 -> getRangedValue 10 3 5 = 5)
  /\ (10 > 5 -> getRangedValue 10 3 5 = 3).
Proof.
  split; [lia | apply (C4_inverted_bounds 10 3 5); lia].
Defined.

(** C8: the maximum resolved on the reversed axis is the limit minus the
    minimum resolved on the forward axis, from the same inputs. *)
Theorem C8_reversal_symmetry
    (absoluteLimit gimbalOffset : Z) (maxPx minPx : option Z)
    (maxPc minPc : option Q) (preferredMax preferredMin : option Prefer) :
  boundsMaximum
    (getAbsoluteBounds true absoluteLimit gimbalOffset
       maxPx minPx maxPc minPc preferredMax preferredMin)
  = absoluteLimit
    - boundsMinimum
        (getAbsoluteBounds false absoluteLimit gimbalOffset
           maxPx minPx maxPc minPc preferredMax preferredMin).
Proof.
  rewrite getAbsoluteBounds_reverse, getAbsoluteBounds_forward.
  reflexivity.
Qed.

(** C3, as stated, fails: on a container of 500 with [maximum={pixels:800}]
    and [minimum={pixels:600, prefer:'percent'}] the effective minimum 600
    does not exceed the effective maximum 800, yet the resolved bounds are
    maximum 500 and minimum 600. *)
Lemma C3_bounds_ordered_counterexample :
  0 <= 500
  /\ effectiveMinimum (candidateMinPc 500 None) (candidateMinPx (Some 600))
       (Some percent_)
     <= effectiveMaximum (candidateMaxPc 500 None) (candidateMaxPx 500 (Some 800))
          (Some pixels_)
  /\ getAbsoluteBounds false 500 0 (Some 800) (Some 600) None None
       (Some pixels_) (Some percent_) = (500, 600, 0)
  /\ ~ (boundsMinimum
          (getAbsoluteBounds false 500 0 (Some 800) (Some 600) None None
             (Some pixels_) (Some percent_))
        <= boundsMaximum
             (getAbsoluteBounds false 500 0 (Some 800) (Some 600) None None
                (Some pixels_) (Some percent_))).
Proof.
  split; [lia |].
  split; [vm_compute; discriminate |].
  split; [reflexivity |].
  vm_compute. intros H. apply H. reflexivity.
Qed.

(** C3, amended: for every containerLimit >= 0 and every rule set whose
    effective minimum does not exceed its effective maximum before clamping,
    and whose effective maximum is not negative and effective minimum is not
    above containerLimit, the resolved bounds satisfy
    0 <= minimum <= maximum <= containerLimit, on either axis direction. *)
Theorem C3_bounds_ordered (isReverse : bool)
    (absoluteLimit gimbalOffset : Z) (maxPx minPx : option Z)
    (maxPc minPc : option Q) (preferredMax preferredMin : option Prefer) :
  let effMax :=
    effectiveMaximum (candidateMaxPc absoluteLimit maxPc)
      (candidateMaxPx absoluteLimit maxPx) preferredMax in
  let effMin :=
    effectiveMinimum (candidateMinPc absoluteLimit minPc)
      (candidateMinPx minPx) preferredMin in
  let resolved :=
    getAbsoluteBounds isReverse absoluteLimit gimbalOffset
      maxPx minPx maxPc minPc preferredMax preferredMin in
  0 <= absoluteLimit ->
  effMin <= effMax ->
  0 <= effMax ->
  effMin <= absoluteLimit ->
  0 <= boundsMinimum resolved
  /\ boundsMinimum resolved <= boundsMaximum resolved
  /\ boundsMaximum resolved <= absoluteLimit.
Proof.
  intros effMax effMin resolved Hlimit Hord Hmax Hmin.
  subst resolved. destruct isReverse.
  - rewrite getAbsoluteBounds_reverse.
    fold effMax effMin. unfold boundsMinimum, boundsMaximum; simpl. lia.
  - rewrite getAbsoluteBounds_forward.
    fold effMax effMin. unfold boundsMinimum, boundsMaximum; simpl. lia.
Qed.

Lemma C3_bounds_ordered_witness :
  0 <= boundsMinimum
         (getAbsoluteBounds false 500 0 None (Some 50) (Some 80%Q) None
            (Some percent_) (Some pixels_))
  /\ boundsMinimum
       (getAbsoluteBounds false 500 0 None (Some 50) (Some 80%Q) None
          (Some percent_) (Some pixels_))
     <= boundsMaximum
          (getAbsoluteBounds false 500 0 None (Some 50) (Some 80%Q) None
             (Some percent_) (Some pixels_))
  /\ boundsMaximum
       (getAbsoluteBounds false 500 0 None (Some 50) (Some 80%Q) None
          (Some percent_) (Some pixels_))
     <= 500.
Proof.
  apply (C3_bounds_ordered false 500 0 None (Some 50) (Some 80%Q) None
           (Some percent_) (Some pixels_));
    vm_compute; discriminate.
Defined.

(** ** The scenario with bounds *)

(** C1, as stated, fails: the bounds resolved by the component for
    [maximum={percent:80}], [minimum={pixels:50}] on a container of 500 have
    minimum 0, not 50. *)
Lemma C1_scenario_counterexample :
  boundsMinimum
    (getAbsoluteBounds false 500 0 None (Some 50) (Some 80%Q) None
       (Some percent_) (Some pixels_)) <> 50
  /\ boundsMinimum
       (Gimbal.bound
          (Gimbal.mounted Scenario.boundedProps (Scenario.container 500) None))
     <> 50.
Proof. split; vm_compute; discriminate. Qed.

(** C1, amended: for containerLimit=500, [maximum={percent:80}],
    [minimum={pixels:50}], forward axis and no [prefer] (the component picks
    'percent' for the maximum and 'pixels' for the minimum), the bounds
    resolution returns maximum=400 and minimum=0, the percent-derived
    minimum 0 being the smaller candidate; and the offset computation for the
    position 30 with these bounds emits before=30px and after=470px. *)
Theorem C1_scenario :
  Gimbal.preferred (Gimbal.maximum Scenario.boundedProps) = percent_
  /\ Gimbal.preferred (Gimbal.minimum Scenario.boundedProps) = pixels_
  /\ getAbsoluteBounds false 500 0 None (Some 50) (Some 80%Q) None
       (Some percent_) (Some pixels_) = (400, 0, 0)
  /\ Gimbal.bound (Gimbal.mounted Scenario.boundedProps (Scenario.container 500) None)
     = (400, 0, 0)
  /\ getOffsets 500 30 400 0 (Some 0)
     = {| after := "470px"; before := "30px" |}.
Proof. repeat split. Qed.

(** ** Formatting of the emitted lengths *)

Lemma stripPx_unfold (s : string) :
  stripPx s
  = if String.eqb s "px" then Some EmptyString
    else match s with
         | EmptyString => None
         | String c rest =>
             match stripPx rest with
             | Some body => Some (String c body)
             | None => None
             end
         end.
Proof. destruct s; reflexivity. Qed.

Lemma stripPx_append (s : string) : stripPx (s ++ "px") = Some s.
Proof.
  induction s as [|c s IH].
  - reflexivity.
  - rewrite stripPx_unfold.
    change ((String c s ++ "px")%string) with (String c (s ++ "px")).
    destruct (String.eqb_spec (String c (s ++ "px")) "px") as [Heq | _].
    + injection Heq as _ Htail.
      destruct s as [|c1 [|c2 s]]; discriminate Htail.
    + rewrite IH. reflexivity.
Qed.

Lemma numberToString_parses (n : Z) :
  NilZero.int_of_string (numberToString n) = Some (Z.to_int n).
Proof.
  unfold numberToString. apply NilZero.isi.
  - destruct n; simpl; try discriminate.
    intros [= H]. now apply DecimalPos.Unsigned.to_uint_nonnil in H.
  - destruct n; simpl; try discriminate.
    intros [= H]. now apply DecimalPos.Unsigned.to_uint_nonnil in H.
Qed.

(** Reading back a formatted length gives the number that was formatted. *)
Lemma pxValue_format (n : Z) : pxValue (numberToString n ++ "px") = Some n.
Proof.
  unfold pxValue.
  rewrite stripPx_append, numberToString_parses, DecimalZ.of_to.
  reflexivity.
Qed.

(** The numbers formatted by [getOffsets] and read back from its event. *)
Lemma getOffsets_values (limit position maximum minimum : Z)
    (factor : option Z) :
  pxValue (before (getOffsets limit position maximum minimum factor))
  = Some (getRangedValue position maximum minimum - orDefault factor 0)
  /\ pxValue (after (getOffsets limit position maximum minimum factor))
     = Some (limit
             - (getRangedValue position maximum minimum - orDefault factor 0)).
Proof.
  unfold getOffsets; cbn [before after].
  rewrite !pxValue_format. split; reflexivity.
Qed.

(** On every choice of limit, position, bounds and factor from the grid,
    up to both ends of the exact range, for which the offset and the limit
    less the offset are computed exactly, the offset computation on binary64
    numbers emits the event of the one on integers. *)
Lemma getOffsets_binary64_agrees : Agreement.agreesOnGrid = true.
Proof. vm_compute. reflexivity. Qed.

(** C7, as stated, fails.  With the limit 2^53, position -1, bounds 10 and
    -5 and factor 0, the offset is -1 and limit - offset is rounded back to
    2^53: the event is before=-1px, after=9007199254740992px, and the two
    values sum to limit - 1.  With the limit 127, the position 0.3 (the
    nearest binary64 number), bounds 127 and 0 and the factor 5, the two
    formatted numbers are -4.7000000000000002 and 131.69999999999999, whose
    binary64 sum is not 127. *)
Lemma C7_before_after_counterexample :
  (Binary64.getOffsets 9007199254740992 (-1) 10 (-5) (Some 0%float)
   = Some {| after := "9007199254740992px"; before := "-1px" |}
   /\ pxValue "-1px" = Some (-1)
   /\ pxValue "9007199254740992px" = Some 9007199254740992
   /\ -1 + 9007199254740992 <> 9007199254740992)
  /\ (let '(afterValue, beforeValue) :=
        Binary64.offsetValues 127 0x1.3333333333333p-2 127 0 (Some 5%float) in
      PrimFloat.eqb (PrimFloat.add beforeValue afterValue) 127 = false).
Proof.
  split.
  - repeat split. vm_compute. discriminate.
  - vm_compute. reflexivity.
Qed.

(** C7, amended: when the limit, the position, the bounds and the factor
    are whole numbers of pixels of magnitude at most 2^53, and so are the
    offset and the limit less the offset (so that binary64 computes every
    step exactly), the numeric values of the before and after lengths of the
    emitted event are the offset and the limit less the offset, and they sum
    exactly to the limit. *)
Theorem C7_before_after_exact (limit position maximum minimum : Z)
    (factor : option Z) :
  let offset := getRangedValue position maximum minimum - orDefault factor 0 in
  Binary64.exactInteger limit ->
  Binary64.exactInteger position ->
  Binary64.exactInteger maximum ->
  Binary64.exactInteger minimum ->
  Binary64.exactInteger (orDefault factor 0) ->
  Binary64.exactInteger offset ->
  Binary64.exactInteger (limit - offset) ->
  exists b a : Z,
    pxValue (before (getOffsets limit position maximum minimum factor)) = Some b
    /\ pxValue (after (getOffsets limit position maximum minimum factor)) = Some a
    /\ b = offset
    /\ a = limit - offset
    /\ b + a = limit.
Proof.
  intros offset _ _ _ _ _ _ _.
  destruct (getOffsets_values limit position maximum minimum factor)
    as [Hb Ha].
  exists offset, (limit - offset).
  repeat split; try assumption. lia.
Qed.

Lemma C7_before_after_exact_witness :
  exists b a : Z,
    pxValue (before (getOffsets 500 30 400 50 (Some 4))) = Some b
    /\ pxValue (after (getOffsets 500 30 400 50 (Some 4))) = Some a
    /\ b = getRangedValue 30 400 50 - orDefault (Some 4) 0
    /\ a = 500 - (getRangedValue 30 400 50 - orDefault (Some 4) 0)
    /\ b + a = 500.
Proof.
  apply (C7_before_after_exact 500 30 400 50 (Some 4));
    vm_compute; discriminate.
Defined.

(** ** Percentages and pixels *)

(** Rounding a ratio of integers is an integer division. *)
Lemma Math_round_ratio (n d : Z) :
  0 < d -> Math_round (inject_Z n / inject_Z d)%Q = (2 * n + d) / (2 * d).
Proof.
  intros Hd. unfold Math_round.
  rewrite Zdiv_Qdiv. apply Qfloor_comp.
  rewrite !inject_Z_plus, !inject_Z_mult.
  assert (Hq : ~ (inject_Z d == 0)%Q).
  { change 0%Q with (inject_Z 0). rewrite inject_Z_injective. lia. }
  field. exact Hq.
Qed.

(** The percentage of [p] in [limit] is a whole number of tenths. *)
Lemma getPercentageFromPixels_tenths (p limit : Z) :
  0 < limit ->
  (getPercentageFromPixels p limit
   == inject_Z ((2000 * p + limit) / (2 * limit)) / 10)%Q.
Proof.
  intros Hl. unfold getPercentageFromPixels.
  assert (Hq : ~ (inject_Z limit == 0)%Q).
  { change 0%Q with (inject_Z 0). rewrite inject_Z_injective. lia. }
  assert (E : (inject_Z p / inject_Z limit * 1000
               == inject_Z (1000 * p) / inject_Z limit)%Q).
  { rewrite inject_Z_mult. field. exact Hq. }
  unfold Math_round at 1. rewrite (Qfloor_comp _ _ (Qplus_comp _ _ E _ _ (Qeq_refl _))).
  fold (Math_round (inject_Z (1000 * p) / inject_Z limit)).
  rewrite Math_round_ratio by exact Hl.
  replace (2 * (1000 * p) + limit) with (2000 * p + limit) by lia.
  reflexivity.
Qed.






(** ** The drag engine *)

Section Engine.
Import Gimbal.

Variable props : Props.

(** The position handed to the offset computation is the pointer coordinate
    minus the first component of [limit], the measured size. *)
Lemma getResizedValues_position (r : Refs) (p : Z) :
  getResizedValues r p
  = getOffsets (fst (limit r)) (p - fst (limit r))
      (boundsMaximum (bound r)) (boundsMinimum (bound r))
      (Some (boundsOffset (bound r))).
Proof.
  unfold getResizedValues, boundsMaximum, boundsMinimum, boundsOffset.
  destruct (bound r) as [[max min] factor]. reflexivity.
Qed.

(** The second component of [limit], the measured leading-edge offset, has
    no influence on the emitted event. *)
Lemma getResizedValues_ignores_offset (r : Refs) (offset p : Z) :
  getResizedValues (setLimit r (fst (limit r), offset)) p
  = getResizedValues r p.
Proof. reflexivity. Qed.

(** C10: when [default.pixels] and [default.percent] are both undefined or
    0, a double-click hands no event to [onResize] and changes nothing but
    the drag state, which becomes IDLE. *)
Theorem C10_falsy_default_no_event (r : Refs) :
  (pixels (defaultPosition props) = None
   \/ pixels (defaultPosition props) = Some 0) ->
  (percent (defaultPosition props) = None
   \/ exists q, percent (defaultPosition props) = Some q /\ (q == 0)%Q) ->
  handleDoubleClick props r = (setClick r DragState.IDLE, []).
Proof.
  intros Hpx Hpc. unfold handleDoubleClick.
  assert (Epx : truthyZ (pixels (defaultPosition props)) = false).
  { destruct Hpx as [-> | ->]; reflexivity. }
  assert (Epc : truthyQ (percent (defaultPosition props)) = false).
  { destruct Hpc as [-> | [q [-> Hq]]]; [reflexivity |].
    simpl. apply Qeq_bool_iff in Hq. rewrite Hq. reflexivity. }
  rewrite Epx, Epc. reflexivity.
Qed.

(** The activation is never one of the event tags. *)
Lemma reachable_mouse (anchorElement handle : option HTMLElement) (r : Refs) :
  reachable props anchorElement handle r ->
  mouse r = MouseState.ACTIVE \/ mouse r = MouseState.IDLE.
Proof.
  induction 1 as [|r i Hr IH].
  - right. reflexivity.
  - destruct i; simpl; try exact IH.
    + unfold handleMouseEvent.
      destruct (MouseState.eqb (mouse r) MouseState.IDLE); [left; reflexivity | exact IH].
    + unfold handleMouseEvent.
      destruct (MouseState.eqb (mouse r) MouseState.ACTIVE); [right; reflexivity | exact IH].
    + unfold handleMouseEvent.
      destruct (MouseState.eqb (mouse r) MouseState.ACTIVE); simpl; [| exact IH].
      destruct (DragState.eqb (click r) DragState.WAIT); [exact IH | right; reflexivity].
    + unfold handleDoubleClick.
      destruct (negb _); exact IH.
    + destruct (timeouts r) as [|n]; simpl; [exact IH |].
      unfold activeTimeout; simpl.
      destruct (DragState.eqb (click r) DragState.WAIT); exact IH.
Qed.

(** While the drag state is WAIT a timer of [setActive] is pending. *)
Lemma reachable_wait_pending (anchorElement handle : option HTMLElement)
    (r : Refs) :
  reachable props anchorElement handle r ->
  click r = DragState.WAIT -> (0 < timeouts r)%nat.
Proof.
  induction 1 as [|r i Hr IH].
  - discriminate.
  - destruct i; simpl; try exact IH.
    + unfold handleMouseEvent.
      destruct (MouseState.eqb (mouse r) MouseState.IDLE); simpl; [lia | exact IH].
    + unfold handleMouseEvent.
      destruct (MouseState.eqb (mouse r) MouseState.ACTIVE); exact IH.
    + unfold handleMouseEvent.
      destruct (MouseState.eqb (mouse r) MouseState.ACTIVE); simpl; [| exact IH].
      destruct (DragState.eqb (click r) DragState.WAIT) eqn:E; simpl;
        [discriminate | exact IH].
    + unfold handleDoubleClick.
      destruct (negb _); simpl; discriminate.
    + destruct (timeouts r) as [|n] eqn:Et; simpl; [rewrite Et; exact IH |].
      unfold activeTimeout; simpl.
      destruct (DragState.eqb (click r) DragState.WAIT) eqn:E; simpl.
      * discriminate.
      * intros Hw. rewrite Hw in E. discriminate.
Qed.

(** C6, amended: in every reachable state the activation is ACTIVE or
    IDLE; an event that activates the gimbal leaves the drag state WAIT, and
    an event that gives the drag state a new value other than IDLE leaves
    the gimbal ACTIVE.  Later events change the two independently. *)
Theorem C6_activation_steps (anchorElement handle : option HTMLElement)
    (r : Refs) (i : Input) :
  reachable props anchorElement handle r ->
  (mouse r = MouseState.ACTIVE \/ mouse r = MouseState.IDLE)
  /\ (mouse r <> MouseState.ACTIVE ->
      mouse (fst (step props r i)) = MouseState.ACTIVE ->
      click (fst (step props r i)) = DragState.WAIT)
  /\ (click (fst (step props r i)) <> click r ->
      click (fst (step props r i)) <> DragState.IDLE ->
      mouse (fst (step props r i)) = MouseState.ACTIVE).
Proof.
  intros Hr. pose proof (reachable_mouse _ _ _ Hr) as Hm.
  split; [exact Hm |].
  destruct i; simpl; unfold handleMouseEvent, handleDoubleClick, activeTimeout.
  - destruct (MouseState.eqb (mouse r) MouseState.IDLE); simpl;
      split; intros; congruence.
  - destruct (MouseState.eqb (mouse r) MouseState.ACTIVE); simpl;
      split; intros; congruence.
  - destruct (MouseState.eqb (mouse r) MouseState.ACTIVE) eqn:E; simpl.
    + apply mouse_eqb_eq in E.
      destruct (DragState.eqb (click r) DragState.WAIT); simpl;
        split; intros; congruence.
    + split; intros; congruence.
  - split; intros; congruence.
  - destruct (negb _); simpl; split; intros; congruence.
  - destruct (timeouts r) as [|n]; simpl; [split; intros; congruence |].
    destruct (DragState.eqb (click r) DragState.WAIT); simpl;
      split; intros; congruence.
  - split; intros; congruence.
  - split; intros; congruence.
Qed.

End Engine.

(** C6, as stated, fails: after a pointer-down on the handle and the firing
    of its timer the gimbal is ACTIVE while the drag state is IDLE; and after
    pointer-down, pointer-up and a pointer-down elsewhere the drag state is
    DRAG while the gimbal is IDLE. *)
Lemma C6_invariant_counterexample :
  (exists r,
     Gimbal.reachable Scenario.resetProps (Scenario.container 500) None r
     /\ Gimbal.mouse r = MouseState.ACTIVE
     /\ Gimbal.click r = DragState.IDLE)
  /\ (exists r,
        Gimbal.reachable Scenario.resetProps (Scenario.container 500) None r
        /\ Gimbal.mouse r = MouseState.IDLE
        /\ Gimbal.click r = DragState.DRAG).
Proof.
  split.
  - eexists. split.
    + apply Gimbal.reachable_step with (i := Gimbal.TimerFires).
      apply Gimbal.reachable_step with (i := Gimbal.HandleDown).
      apply Gimbal.reachable_mounted.
    + split; reflexivity.
  - eexists. split.
    + apply Gimbal.reachable_step with (i := Gimbal.WindowDown).
      apply Gimbal.reachable_step with (i := Gimbal.WindowUp).
      apply Gimbal.reachable_step with (i := Gimbal.HandleDown).
      apply Gimbal.reachable_mounted.
    + split; reflexivity.
Qed.

Lemma C6_activation_steps_witness :
  (Gimbal.mouse (Gimbal.mounted Scenario.resetProps (Scenario.container 500) None)
     = MouseState.ACTIVE
   \/ Gimbal.mouse (Gimbal.mounted Scenario.resetProps (Scenario.container 500) None)
     = MouseState.IDLE)
  /\ Gimbal.click
       (fst (Gimbal.step Scenario.resetProps
               (Gimbal.mounted Scenario.resetProps (Scenario.container 500) None)
               Gimbal.HandleDown))
     = DragState.WAIT
  /\ Gimbal.mouse
       (fst (Gimbal.step Scenario.resetProps
               (Gimbal.mounted Scenario.resetProps (Scenario.container 500) None)
               Gimbal.HandleDown))
     = MouseState.ACTIVE.
Proof.
  destruct (C6_activation_steps Scenario.resetProps (Scenario.container 500) None
              (Gimbal.mounted Scenario.resetProps (Scenario.container 500) None)
              Gimbal.HandleDown
              (Gimbal.reachable_mounted _ _ _)) as [Hm [Hact Hdrag]].
  split; [exact Hm |].
  split.
  - apply Hact; [vm_compute; discriminate | reflexivity].
  - apply Hdrag; vm_compute; discriminate.
Defined.

Lemma C10_falsy_default_no_event_witness :
  Gimbal.handleDoubleClick Scenario.zeroDefaultProps
    (Gimbal.mounted Scenario.zeroDefaultProps (Scenario.container 500) None)
  = (Gimbal.setClick
       (Gimbal.mounted Scenario.zeroDefaultProps (Scenario.container 500) None)
       DragState.IDLE, []).
Proof.
  apply (C10_falsy_default_no_event Scenario.zeroDefaultProps).
  - right. reflexivity.
  - left. reflexivity.
Defined.

(** C5: on a container 500 wide at the origin, with [default={percent:50}],
    no other rule and a handle without thickness, the bounds are [0, 500] and
    the default position is 250; the double-click hands 250 - 500 to the
    offset computation, which clamps it to 0 and emits before=0px and
    after=500px. *)
Theorem C5_double_click_reset :
  Gimbal.limit (Gimbal.mounted Scenario.resetProps (Scenario.container 500) None)
  = (500, 0)
  /\ Gimbal.bound (Gimbal.mounted Scenario.resetProps (Scenario.container 500) None)
     = (500, 0, 0)
  /\ getPixelsFromPercentage 50%Q 500 = 250
  /\ snd (Gimbal.handleDoubleClick Scenario.resetProps
            (Gimbal.mounted Scenario.resetProps (Scenario.container 500) None))
     = [{| after := "500px"; before := "0px" |}].
Proof. repeat split. Qed.

(** ** Further properties of the helpers *)

Lemma getRangedValue_ordered (value maximum minimum : Z) :
  minimum <= maximum ->
  getRangedValue value maximum minimum = Z.max minimum (Z.min value maximum).
Proof.
  intros Hord. unfold getRangedValue.
  destruct (Z.gtb_spec value minimum), (Z.ltb_spec value maximum); lia.
Qed.

(** With ordered bounds the helper is the usual clamp: the result lies
    between the bounds and a value already between them is returned as is. *)
Theorem getRangedValue_clamps (value maximum minimum : Z) :
  minimum <= maximum ->
  getRangedValue value maximum minimum = Z.max minimum (Z.min value maximum)
  /\ minimum <= getRangedValue value maximum minimum <= maximum
  /\ (minimum <= value <= maximum ->
      getRangedValue value maximum minimum = value).
Proof.
  intros Hord. rewrite (getRangedValue_ordered _ _ _ Hord).
  repeat split; intros; lia.
Qed.

Lemma getRangedValue_clamps_witness :
  getRangedValue 30 400 50 = Z.max 50 (Z.min 30 400)
  /\ 50 <= getRangedValue 30 400 50 <= 400
  /\ (50 <= 30 <= 400 -> getRangedValue 30 400 50 = 30).
Proof. apply (getRangedValue_clamps 30 400 50). lia. Defined.

(** With ordered bounds clamping twice is clamping once, and a larger value
    never clamps below a smaller one. *)
Theorem getRangedValue_idempotent_monotone (v w maximum minimum : Z) :
  minimum <= maximum ->
  getRangedValue (getRangedValue v maximum minimum) maximum minimum
  = getRangedValue v maximum minimum
  /\ (v <= w ->
      getRangedValue v maximum minimum <= getRangedValue w maximum minimum).
Proof.
  intros Hord. rewrite !(getRangedValue_ordered _ _ _ Hord).
  split; intros; lia.
Qed.

Lemma getRangedValue_idempotent_monotone_witness :
  getRangedValue (getRangedValue 30 400 50) 400 50 = getRangedValue 30 400 50
  /\ (30 <= 450 -> getRangedValue 30 400 50 <= getRangedValue 450 400 50).
Proof. apply (getRangedValue_idempotent_monotone 30 450 400 50). lia. Defined.

(** The selection returns one of its two arguments and does not depend on
    their order: which candidate came from the percentage and which from
    the pixels plays no role, also when they are equal. *)
Theorem getPreferredValue_symmetric (valueA valueB : Z) (preferLarger : bool) :
  getPreferredValue valueA valueB preferLarger
  = getPreferredValue valueB valueA preferLarger
  /\ (getPreferredValue valueA valueB preferLarger = valueA
      \/ getPreferredValue valueA valueB preferLarger = valueB).
Proof.
  unfold getPreferredValue.
  destruct preferLarger, (Z.gtb_spec valueA valueB), (Z.gtb_spec valueB valueA);
    split; (lia || (left; lia) || (right; lia)).
Qed.

(** Rounding is monotone and fixes the integers. *)
Lemma Math_round_le (x y : Q) : (x <= y)%Q -> Math_round x <= Math_round y.
Proof.
  intros H. unfold Math_round. apply Qfloor_resp_le.
  apply Qplus_le_l. exact H.
Qed.

Lemma Math_round_inject (n : Z) (x : Q) : (x == inject_Z n)%Q -> Math_round x = n.
Proof.
  intros H. unfold Math_round.
  assert (E : (x + (1 # 2) == inject_Z (2 * n + 1) / inject_Z 2)%Q).
  { rewrite H, inject_Z_plus, inject_Z_mult. field. }
  rewrite (Qfloor_comp _ _ E), <- Zdiv_Qdiv.
  symmetry. apply (Z.div_unique _ _ n 1); lia.
Qed.

Lemma getPixelsFromPercentage_zero (limit : Z) :
  getPixelsFromPercentage 0%Q limit = 0.
Proof. apply Math_round_inject. simpl. field. Qed.

Lemma getPixelsFromPercentage_hundred (limit : Z) :
  getPixelsFromPercentage 100%Q limit = limit.
Proof. apply Math_round_inject. field. Qed.

Lemma getPixelsFromPercentage_le (a b : Q) (limit : Z) :
  0 <= limit -> (a <= b)%Q ->
  getPixelsFromPercentage a limit <= getPixelsFromPercentage b limit.
Proof.
  intros Hl Hab. apply Math_round_le.
  rewrite (Qmult_comm (inject_Z limit) (a / 100)),
          (Qmult_comm (inject_Z limit) (b / 100)).
  apply Qmult_le_compat_r.
  - unfold Qdiv. apply Qmult_le_compat_r; [exact Hab | discriminate].
  - change 0%Q with (inject_Z 0). rewrite <- Zle_Qle. exact Hl.
Qed.

Lemma getPixelsFromPercentage_bounded (pc : Q) (limit : Z) :
  0 <= limit -> (0 <= pc)%Q -> (pc <= 100)%Q ->
  0 <= getPixelsFromPercentage pc limit <= limit.
Proof.
  intros Hl H0 H100.
  pose proof (getPixelsFromPercentage_le _ _ limit Hl H0) as Hlow.
  pose proof (getPixelsFromPercentage_le _ _ limit Hl H100) as Hhigh.
  rewrite getPixelsFromPercentage_zero in Hlow.
  rewrite getPixelsFromPercentage_hundred in Hhigh. split; assumption.
Qed.

(** On a limit that is not negative the pixels of a percentage grow with the
    percentage; 0 percent is 0 pixels and 100 percent is the limit, so a
    percentage between 0 and 100 stays between 0 and the limit. *)
Theorem getPixelsFromPercentage_range (pc pc' : Q) (limit : Z) :
  0 <= limit ->
  getPixelsFromPercentage 0%Q limit = 0
  /\ getPixelsFromPercentage 100%Q limit = limit
  /\ ((pc <= pc')%Q ->
      getPixelsFromPercentage pc limit <= getPixelsFromPercentage pc' limit)
  /\ ((0 <= pc)%Q -> (pc <= 100)%Q ->
      0 <= getPixelsFromPercentage pc limit <= limit).
Proof.
  intros Hl.
  split; [apply getPixelsFromPercentage_zero |].
  split; [apply getPixelsFromPercentage_hundred |].
  split; [apply getPixelsFromPercentage_le; exact Hl |].
  apply getPixelsFromPercentage_bounded; exact Hl.
Qed.

Lemma getPixelsFromPercentage_range_witness :
  getPixelsFromPercentage 0%Q 500 = 0
  /\ getPixelsFromPercentage 100%Q 500 = 500
  /\ ((20 <= 80)%Q ->
      getPixelsFromPercentage 20%Q 500 <= getPixelsFromPercentage 80%Q 500)
  /\ ((0 <= 20)%Q -> (20 <= 100)%Q ->
      0 <= getPixelsFromPercentage 20%Q 500 <= 500).
Proof. apply (getPixelsFromPercentage_range 20%Q 80%Q 500). lia. Defined.

(** A length inside a positive limit is between 0 and 100 percent of it,
    the whole limit is exactly 100 percent, and the percentage is a whole
    number of tenths. *)
Theorem getPercentageFromPixels_range (p limit : Z) :
  0 < limit ->
  0 <= p <= limit ->
  (0 <= getPercentageFromPixels p limit)%Q
  /\ (getPercentageFromPixels p limit <= 100)%Q
  /\ (getPercentageFromPixels limit limit == 100)%Q
  /\ (getPercentageFromPixels 0 limit == 0)%Q
  /\ exists tenths : Z,
       (getPercentageFromPixels p limit == inject_Z tenths / 10)%Q.
Proof.
  intros Hl Hp.
  assert (Hform : forall x, 0 <= x <= limit ->
            0 <= (2000 * x + limit) / (2 * limit) <= 1000).
  { intros x Hx. split.
    - apply Z.div_pos; lia.
    - assert ((2000 * x + limit) / (2 * limit) < 1001); [| lia].
      apply Z.div_lt_upper_bound; lia. }
  assert (Hq : forall t, 0 <= t <= 1000 ->
            (0 <= inject_Z t / 10)%Q /\ (inject_Z t / 10 <= 100)%Q).
  { intros t [Ht0 Ht1]. split.
    - apply Qle_shift_div_l; [reflexivity |].
      rewrite Qmult_0_l. change 0%Q with (inject_Z 0). now rewrite <- Zle_Qle.
    - apply Qle_shift_div_r; [reflexivity |].
      change (100 * 10)%Q with (inject_Z 1000). now rewrite <- Zle_Qle. }
  rewrite !(getPercentageFromPixels_tenths _ limit Hl).
  destruct (Hq _ (Hform p Hp)) as [H0 H100].
  split; [exact H0 |]. split; [exact H100 |].
  split.
  { replace ((2000 * limit + limit) / (2 * limit)) with 1000.
    - reflexivity.
    - apply (Z.div_unique _ _ 1000 limit); lia. }
  split.
  { replace ((2000 * 0 + limit) / (2 * limit)) with 0.
    - reflexivity.
    - apply (Z.div_unique _ _ 0 limit); lia. }
  eexists. reflexivity.
Qed.

Lemma getPercentageFromPixels_range_witness :
  (0 <= getPercentageFromPixels 123 500)%Q
  /\ (getPercentageFromPixels 123 500 <= 100)%Q
  /\ (getPercentageFromPixels 500 500 == 100)%Q
  /\ (getPercentageFromPixels 0 500 == 0)%Q
  /\ exists tenths : Z,
       (getPercentageFromPixels 123 500 == inject_Z tenths / 10)%Q.
Proof. apply (getPercentageFromPixels_range 123 500); lia. Defined.





(** ** Further properties of the bounds *)

Lemma getAbsoluteBounds_capped (isReverse : bool)
    (absoluteLimit gimbalOffset : Z) (maxPx minPx : option Z)
    (maxPc minPc : option Q) (preferredMax preferredMin : option Prefer) :
  boundsMaximum
    (getAbsoluteBounds isReverse absoluteLimit gimbalOffset
       maxPx minPx maxPc minPc preferredMax preferredMin) <= absoluteLimit
  /\ 0 <= boundsMinimum
            (getAbsoluteBounds isReverse absoluteLimit gimbalOffset
               maxPx minPx maxPc minPc preferredMax preferredMin).
Proof.
  destruct isReverse.
  - rewrite getAbsoluteBounds_reverse.
    unfold boundsMaximum, boundsMinimum; simpl. lia.
  - rewrite getAbsoluteBounds_forward.
    unfold boundsMaximum, boundsMinimum; simpl. lia.
Qed.

(** Whatever the rules, the resolved maximum never exceeds the limit and
    the resolved minimum is never negative, on either axis direction; the
    offset is handed through unchanged. *)
Theorem getAbsoluteBounds_within_limit (isReverse : bool)
    (absoluteLimit gimbalOffset : Z) (maxPx minPx : option Z)
    (maxPc minPc : option Q) (preferredMax preferredMin : option Prefer) :
  boundsMaximum
    (getAbsoluteBounds isReverse absoluteLimit gimbalOffset
       maxPx minPx maxPc minPc preferredMax preferredMin) <= absoluteLimit
  /\ 0 <= boundsMinimum
            (getAbsoluteBounds isReverse absoluteLimit gimbalOffset
               maxPx minPx maxPc minPc preferredMax preferredMin)
  /\ boundsOffset
       (getAbsoluteBounds isReverse absoluteLimit gimbalOffset
          maxPx minPx maxPc minPc preferredMax preferredMin) = gimbalOffset.
Proof.
  pose proof (getAbsoluteBounds_capped isReverse absoluteLimit gimbalOffset
                maxPx minPx maxPc minPc preferredMax preferredMin) as [HM Hm].
  repeat split; assumption.
Qed.


(** Without any rule the bounds are the whole container, on either axis
    direction and whatever the two preferences. *)
Theorem getAbsoluteBounds_unconstrained (isReverse : bool)
    (absoluteLimit gimbalOffset : Z) (preferredMax preferredMin : option Prefer) :
  getAbsoluteBounds isReverse absoluteLimit gimbalOffset
    None None None None preferredMax preferredMin
  = (absoluteLimit, 0, gimbalOffset).
Proof.
  pose proof (getPixelsFromPercentage_hundred absoluteLimit) as E100.
  pose proof (getPixelsFromPercentage_zero absoluteLimit) as E0.
  destruct isReverse.
  - rewrite getAbsoluteBounds_reverse.
    unfold effectiveMaximum, effectiveMinimum, candidateMaxPc, candidateMaxPx,
      candidateMinPc, candidateMinPx, orDefault.
    rewrite E100, E0.
    destruct (prefersTo preferredMax pixels_), (prefersTo preferredMin percent_);
      rewrite ?getPreferredValue_larger, ?getPreferredValue_smaller;
      repeat f_equal; lia.
  - rewrite getAbsoluteBounds_forward.
    unfold effectiveMaximum, effectiveMinimum, candidateMaxPc, candidateMaxPx,
      candidateMinPc, candidateMinPx, orDefault.
    rewrite E100, E0.
    destruct (prefersTo preferredMax pixels_), (prefersTo preferredMin percent_);
      rewrite ?getPreferredValue_larger, ?getPreferredValue_smaller;
      repeat f_equal; lia.
Qed.

(** Percent rules between 0 and 100 on a limit that is not negative: when
    the maximum is not preferred in pixels and the minimum is preferred in
    percent, as the component asks for rules that give no pixels, the
    forward bounds are the two percentages of the limit. *)
Theorem getAbsoluteBounds_percent_rules
    (absoluteLimit gimbalOffset : Z) (pcMax pcMin : Q)
    (preferredMax preferredMin : option Prefer) :
  0 <= absoluteLimit ->
  (0 <= pcMax)%Q -> (pcMax <= 100)%Q ->
  (0 <= pcMin)%Q -> (pcMin <= 100)%Q ->
  prefersTo preferredMax pixels_ = false ->
  prefersTo preferredMin percent_ = true ->
  getAbsoluteBounds false absoluteLimit gimbalOffset
    None None (Some pcMax) (Some pcMin) preferredMax preferredMin
  = (getPixelsFromPercentage pcMax absoluteLimit,
     getPixelsFromPercentage pcMin absoluteLimit,
     gimbalOffset).
Proof.
  intros Hl HM0 HM1 Hm0 Hm1 EM Em.
  pose proof (getPixelsFromPercentage_bounded pcMax absoluteLimit Hl HM0 HM1) as HM.
  pose proof (getPixelsFromPercentage_bounded pcMin absoluteLimit Hl Hm0 Hm1) as Hm.
  rewrite getAbsoluteBounds_forward.
  unfold effectiveMaximum, effectiveMinimum, candidateMaxPc, candidateMaxPx,
    candidateMinPc, candidateMinPx, orDefault.
  rewrite EM, Em, getPreferredValue_larger, getPreferredValue_smaller.
  repeat f_equal; lia.
Qed.

Lemma getAbsoluteBounds_percent_rules_witness :
  getAbsoluteBounds false 500 0 None None (Some 80%Q) (Some 10%Q)
    (Some percent_) (Some percent_)
  = (getPixelsFromPercentage 80%Q 500, getPixelsFromPercentage 10%Q 500, 0).
Proof.
  apply (getAbsoluteBounds_percent_rules 500 0 80%Q 10%Q
           (Some percent_) (Some percent_));
    first [reflexivity | lia | (vm_compute; discriminate)].
Defined.

(** With ordered bounds the emitted before length is the clamped position
    less the factor: it lies between minimum - factor and maximum - factor
    and does not decrease when the position grows. *)
Theorem getOffsets_before_range (limit position position' maximum minimum : Z)
    (factor : option Z) :
  minimum <= maximum ->
  exists b b' : Z,
    pxValue (before (getOffsets limit position maximum minimum factor)) = Some b
    /\ pxValue (before (getOffsets limit position' maximum minimum factor))
       = Some b'
    /\ minimum - orDefault factor 0 <= b <= maximum - orDefault factor 0
    /\ (position <= position' -> b <= b').
Proof.
  intros Hord.
  exists (getRangedValue position maximum minimum - orDefault factor 0).
  exists (getRangedValue position' maximum minimum - orDefault factor 0).
  unfold getOffsets; cbn [before].
  rewrite !pxValue_format, !(getRangedValue_ordered _ _ _ Hord).
  repeat split; intros; lia.
Qed.

(** ** Further properties of the component *)


Section Component.
Import Gimbal Trace.

Variable props : Props.

Lemma Math_floor_half (h : Z) :
  Math_floor (if h =? 0 then 0 else inject_Z h / 2)%Q = h / 2.
Proof.
  unfold Math_floor. destruct (Z.eqb_spec h 0) as [-> | _].
  - reflexivity.
  - rewrite Zdiv_Qdiv. reflexivity.
Qed.

(** The bounds the effect stores: the offset is half the measured size of
    the handle, rounded down; the maximum never exceeds the measured size of
    the container plus that offset and the minimum is never negative. *)
Theorem boundsEffect_handle (r : Refs) :
  boundsOffset (bound (boundsEffect props r))
  = fst (getSizeOf props (divEl r)) / 2
  /\ boundsMaximum (bound (boundsEffect props r))
     <= fst (limit r) + fst (getSizeOf props (divEl r)) / 2
  /\ 0 <= boundsMinimum (bound (boundsEffect props r)).
Proof.
  unfold boundsEffect; cbv zeta; cbn [bound setBound].
  rewrite Math_floor_half.
  split.
  - unfold getAbsoluteBounds, boundsOffset. reflexivity.
  - apply getAbsoluteBounds_capped.
Qed.

(** A rule that gives no percentage and no preference has no effect: with
    such maximum and minimum rules the stored bounds are those of a gimbal
    without rules, whatever their pixels and the axis direction. *)
Theorem boundsEffect_pixel_rules (r : Refs) :
  percent (maximum props) = None -> prefer (maximum props) = None ->
  percent (minimum props) = None -> prefer (minimum props) = None ->
  bound (boundsEffect props r)
  = (fst (limit r) + fst (getSizeOf props (divEl r)) / 2,
     0,
     fst (getSizeOf props (divEl r)) / 2).
Proof.
  intros HMpc HMpr Hmpc Hmpr.
  unfold boundsEffect; cbv zeta; cbn [bound setBound].
  rewrite Math_floor_half, HMpc, Hmpc.
  set (g := fst (getSizeOf props (divEl r)) / 2).
  set (L := fst (limit r) + g).
  pose proof (getPixelsFromPercentage_hundred L) as E100.
  pose proof (getPixelsFromPercentage_zero L) as E0.
  unfold preferred. rewrite HMpr, Hmpr.
  destruct (isReverse props);
    [rewrite getAbsoluteBounds_reverse | rewrite getAbsoluteBounds_forward];
    unfold effectiveMaximum, effectiveMinimum, candidateMaxPc, candidateMaxPx,
      candidateMinPc, candidateMinPx, orDefault;
    rewrite E100, E0;
    destruct (pixels (maximum props)), (pixels (minimum props));
    cbn [prefersTo Prefer_eqb];
    rewrite ?getPreferredValue_larger, ?getPreferredValue_smaller;
    repeat f_equal; lia.
Qed.

(** In a reachable state a pointer move hands exactly one event to
    [onResize] when the gimbal is ACTIVE, computed from the coordinate on
    the active axis, and none otherwise; it changes no cell. *)
Theorem move_emits_when_active (anchorElement handle : option HTMLElement)
    (r : Refs) (event : MouseEvent) :
  reachable props anchorElement handle r ->
  fst (step props r (WindowMove event)) = r
  /\ (mouse r = MouseState.ACTIVE ->
      snd (step props r (WindowMove event))
      = [getResizedValues r (if isVertical props then clientY event
                             else clientX event)])
  /\ (mouse r <> MouseState.ACTIVE ->
      snd (step props r (WindowMove event)) = []).
Proof.
  intros Hr. simpl. unfold handleMouseMovement.
  split; [reflexivity |].
  destruct (reachable_mouse _ _ _ _ Hr) as [Hm | Hm]; rewrite Hm; simpl;
    split; intros; congruence.
Qed.

Lemma step_emits_at_most (r : Refs) (i : Input) :
  (List.length (snd (step props r i)) <= (if emitter i then 1 else 0))%nat.
Proof.
  destruct i; simpl; try lia.
  - unfold handleMouseMovement.
    destruct (MouseState.eqb (mouse r) MouseState.IDLE); simpl; lia.
  - unfold handleDoubleClick. destruct (negb _); simpl; lia.
  - destruct (timeouts r); simpl; lia.
Qed.

(** A sequence of inputs hands at most one event to [onResize] per pointer
    move or double-click in it; pointer-downs, pointer-ups, timers, resizes
    and renders alone hand over none. *)
Theorem run_emits_at_most (inputs : list Input) (r : Refs) :
  (List.length (snd (run props r inputs)) <= emitters inputs)%nat
  /\ (emitters inputs = 0%nat -> snd (run props r inputs) = []).
Proof.
  assert (Hlen : forall l s,
            (List.length (snd (run props s l)) <= emitters l)%nat).
  { induction l as [|i rest IH]; intros s; [simpl; lia |].
    cbn [run]. pose proof (step_emits_at_most s i) as Hs.
    destruct (step props s i) as [s1 out1].
    specialize (IH s1). destruct (run props s1 rest) as [s2 out2].
    cbn [snd] in *. rewrite List.length_app.
    unfold emitters in *. cbn [List.filter].
    destruct (emitter i); cbn [List.length]; lia. }
  split; [apply Hlen |].
  intros Hz. specialize (Hlen inputs r). rewrite Hz in Hlen.
  destruct (snd (run props r inputs)); [reflexivity | simpl in Hlen; lia].
Qed.

(** From an idle gimbal: a pointer-down on the handle released before the
    timer fires leaves the gimbal ACTIVE in the DRAG state, so that it keeps
    following the pointer until the next pointer-up; released after the
    timer has fired, or followed by a pointer-down elsewhere, it leaves the
    gimbal IDLE. *)
Theorem press_and_release (r : Refs) :
  mouse r = MouseState.IDLE ->
  (mouse (fst (run props r [HandleDown; WindowUp])) = MouseState.ACTIVE
   /\ click (fst (run props r [HandleDown; WindowUp])) = DragState.DRAG)
  /\ mouse (fst (run props r [HandleDown; WindowUp; WindowUp]))
     = MouseState.IDLE
  /\ (mouse (fst (run props r [HandleDown; TimerFires; WindowUp]))
      = MouseState.IDLE
      /\ click (fst (run props r [HandleDown; TimerFires; WindowUp]))
         = DragState.IDLE)
  /\ mouse (fst (run props r [HandleDown; WindowDown])) = MouseState.IDLE.
Proof.
  intros Hm. cbn [run step handleMouseEvent]. rewrite Hm.
  repeat split.
Qed.

(** In a reachable state whose drag state is WAIT a timer is pending, and
    its firing resets the drag state to IDLE without touching the
    activation. *)
Theorem wait_ends_with_timer (anchorElement handle : option HTMLElement)
    (r : Refs) :
  reachable props anchorElement handle r ->
  click r = DragState.WAIT ->
  (0 < timeouts r)%nat
  /\ click (fst (step props r TimerFires)) = DragState.IDLE
  /\ mouse (fst (step props r TimerFires)) = mouse r.
Proof.
  intros Hr Hw. pose proof (reachable_wait_pending _ _ _ _ Hr Hw) as Hp.
  split; [exact Hp |].
  simpl. destruct (timeouts r) as [|n]; [lia |].
  unfold activeTimeout; simpl. rewrite Hw. simpl. split; reflexivity.
Qed.

End Component.


Section MissingAnchor.
Import Gimbal Trace.

Variable props : Props.
Hypothesis maximum_no_pixels : pixels (maximum props) = None.
Hypothesis minimum_no_pixels : pixels (minimum props) = None.

Lemma getPixelsFromPercentage_no_limit (pc : Q) :
  getPixelsFromPercentage pc 0 = 0.
Proof. apply Math_round_inject. unfold Qdiv. ring. Qed.

Lemma boundsEffect_collapsed (r : Refs) :
  limit r = (0, 0) -> divEl r = None ->
  bound (boundsEffect props r) = (0, 0, 0).
Proof.
  intros Hl Hd. unfold boundsEffect; cbv zeta; cbn [bound setBound].
  rewrite Hd, Hl, maximum_no_pixels, minimum_no_pixels.
  cbn [getSizeOf getSizeAndOffset fst Z.eqb].
  change (Math_floor 0) with 0. cbn [Z.add].
  destruct (isReverse props);
    [rewrite getAbsoluteBounds_reverse | rewrite getAbsoluteBounds_forward];
    unfold effectiveMaximum, effectiveMinimum, candidateMaxPc, candidateMaxPx,
      candidateMinPc, candidateMinPx;
    rewrite !getPixelsFromPercentage_no_limit; cbn [orDefault];
    destruct (prefersTo _ pixels_), (prefersTo _ percent_); reflexivity.
Qed.

Lemma getResizedValues_collapsed (r : Refs) (p : Z) :
  collapsedRefs r -> getResizedValues r p = collapsed.
Proof.
  intros [Hl [_ Hb]]. unfold getResizedValues. rewrite Hb, Hl.
  unfold getOffsets, getRangedValue; cbn [fst orDefault].
  destruct (Z.gtb_spec (p - 0) 0), (Z.ltb_spec (p - 0) 0);
    try lia; reflexivity.
Qed.

Lemma step_collapsed (r : Refs) (i : Input) :
  collapsedRefs r -> anchorMissing i = true ->
  collapsedRefs (fst (step props r i))
  /\ forall e, In e (snd (step props r i)) -> e = collapsed.
Proof.
  intros Hc Hi. pose proof Hc as [Hl [Hd Hb]].
  destruct i; simpl.
  - split; [| contradiction].
    unfold handleMouseEvent.
    destruct (MouseState.eqb (mouse r) MouseState.IDLE); exact Hc.
  - split; [| contradiction].
    unfold handleMouseEvent.
    destruct (MouseState.eqb (mouse r) MouseState.ACTIVE); exact Hc.
  - split; [| contradiction].
    unfold handleMouseEvent.
    destruct (MouseState.eqb (mouse r) MouseState.ACTIVE); simpl; [| exact Hc].
    destruct (DragState.eqb (click r) DragState.WAIT); exact Hc.
  - split; [exact Hc |].
    unfold handleMouseMovement.
    destruct (MouseState.eqb (mouse r) MouseState.IDLE); simpl;
      [contradiction |].
    intros e [<- | []]. apply getResizedValues_collapsed. exact Hc.
  - unfold handleDoubleClick.
    destruct (negb _); simpl; (split; [exact Hc |]); [contradiction |].
    intros e [<- | []]. apply getResizedValues_collapsed. exact Hc.
  - split; [| destruct (timeouts r); contradiction].
    destruct (timeouts r) as [|n]; simpl; [exact Hc |].
    unfold activeTimeout; simpl.
    destruct (DragState.eqb (click r) DragState.WAIT); exact Hc.
  - destruct anchorElement as [el |]; [discriminate |].
    split; [| contradiction]. repeat split; assumption.
  - split; [| contradiction].
    repeat split; try assumption. apply boundsEffect_collapsed; assumption.
Qed.

(** Without an anchor element and without a handle element, and with rules
    that give no pixels, the container has no size: as long as no resize
    finds an anchor, every event handed to [onResize] is before=0px,
    after=0px. *)
Theorem missing_anchor_collapses (inputs : list Input) :
  forallb anchorMissing inputs = true ->
  Forall (fun e => e = collapsed)
    (snd (run props (mounted props None None) inputs)).
Proof.
  assert (Hrun : forall l r, collapsedRefs r ->
            forallb anchorMissing l = true ->
            Forall (fun e => e = collapsed) (snd (run props r l))).
  { induction l as [|i rest IH]; intros r Hc Hall; [constructor |].
    cbn [forallb] in Hall. apply andb_prop in Hall as [Hi Hrest].
    cbn [run]. destruct (step_collapsed r i Hc Hi) as [Hc1 Hout1].
    destruct (step props r i) as [r1 out1]. cbn [fst snd] in *.
    specialize (IH r1 Hc1 Hrest).
    destruct (run props r1 rest) as [r2 out2]. cbn [snd] in *.
    apply Forall_app. split; [apply Forall_forall; exact Hout1 | exact IH]. }
  intros Hall. apply Hrun; [| exact Hall].
  unfold mounted. repeat split.
  apply boundsEffect_collapsed; reflexivity.
Qed.

End MissingAnchor.


Section DoubleClick.
Import Gimbal.

Variable props : Props.

(** A double-click with a default position: when [default.pixels] is
    defined and one of the two fields is not 0, the pixels are the position,
    whatever the percentage; when only a percentage other than 0 is given,
    the position is that percentage of the measured size.  In both cases
    exactly one event is handed over, whether the gimbal is active or not,
    and only the drag state changes. *)
Theorem double_click_position (r : Refs) :
  (forall px,
     pixels (defaultPosition props) = Some px ->
     px <> 0 \/ truthyQ (percent (defaultPosition props)) = true ->
     handleDoubleClick props r
     = (setClick r DragState.IDLE, [getResizedValues r px]))
  /\ (forall pc,
        pixels (defaultPosition props) = None ->
        percent (defaultPosition props) = Some pc ->
        ~ (pc == 0)%Q ->
        handleDoubleClick props r
        = (setClick r DragState.IDLE,
           [getResizedValues r (getPixelsFromPercentage pc (fst (limit r)))])).
Proof.
  split.
  - intros px Hpx Htruthy. unfold handleDoubleClick. rewrite Hpx.
    assert (E : (truthyQ (percent (defaultPosition props))
                 || truthyZ (Some px))%bool = true).
    { destruct Htruthy as [Hne | ->]; [| reflexivity].
      apply Bool.orb_true_iff. right. simpl.
      destruct (Z.eqb_spec px 0); [contradiction | reflexivity]. }
    rewrite E. reflexivity.
  - intros pc Hpx Hpc Hne. unfold handleDoubleClick. rewrite Hpx, Hpc.
    assert (E : truthyQ (Some pc) = true).
    { simpl. destruct (Qeq_bool pc 0) eqn:Eq; [| reflexivity].
      apply Qeq_bool_iff in Eq. contradiction. }
    rewrite E. reflexivity.
Qed.

End DoubleClick.

(** Witnesses *)

Lemma getOffsets_before_range_witness :
  exists b b' : Z,
    pxValue (before (getOffsets 500 30 400 50 (Some 4))) = Some b
    /\ pxValue (before (getOffsets 500 450 400 50 (Some 4))) = Some b'
    /\ 50 - orDefault (Some 4) 0 <= b <= 400 - orDefault (Some 4) 0
    /\ (30 <= 450 -> b <= b').
Proof. apply (getOffsets_before_range 500 30 450 400 50 (Some 4)). lia. Defined.

Lemma boundsEffect_pixel_rules_witness :
  Gimbal.bound
    (Gimbal.boundsEffect Cases.pixelRulesProps
       (Gimbal.mounted Cases.pixelRulesProps (Scenario.container 500) Cases.handle9))
  = (500 + 9 / 2, 0, 9 / 2).
Proof.
  apply (boundsEffect_pixel_rules Cases.pixelRulesProps
           (Gimbal.mounted Cases.pixelRulesProps (Scenario.container 500)
              Cases.handle9)); reflexivity.
Defined.

Lemma move_emits_when_active_witness :
  fst (Gimbal.step Scenario.boundedProps
         (fst (Gimbal.step Scenario.boundedProps
                 (Gimbal.mounted Scenario.boundedProps (Scenario.container 500) None)
                 Gimbal.HandleDown))
         (Gimbal.WindowMove (Cases.pointerAt 620 0)))
  = fst (Gimbal.step Scenario.boundedProps
           (Gimbal.mounted Scenario.boundedProps (Scenario.container 500) None)
           Gimbal.HandleDown)
  /\ snd (Gimbal.step Scenario.boundedProps
            (fst (Gimbal.step Scenario.boundedProps
                    (Gimbal.mounted Scenario.boundedProps (Scenario.container 500) None)
                    Gimbal.HandleDown))
            (Gimbal.WindowMove (Cases.pointerAt 620 0)))
     = [{| after := "380px"; before := "120px" |}].
Proof.
  destruct (move_emits_when_active Scenario.boundedProps
              (Scenario.container 500) None
              (fst (Gimbal.step Scenario.boundedProps
                      (Gimbal.mounted Scenario.boundedProps
                         (Scenario.container 500) None)
                      Gimbal.HandleDown))
              (Cases.pointerAt 620 0)
              (Gimbal.reachable_step _ _ _ _ Gimbal.HandleDown
                 (Gimbal.reachable_mounted _ _ _)))
    as [Hsame [Hactive _]].
  split; [exact Hsame |].
  rewrite Hactive; reflexivity.
Defined.

Lemma run_emits_at_most_witness :
  snd (Gimbal.run Scenario.resetProps
         (Gimbal.mounted Scenario.resetProps (Scenario.container 500) None)
         [Gimbal.HandleDown; Gimbal.WindowUp; Gimbal.WindowDown]) = [].
Proof.
  apply (run_emits_at_most Scenario.resetProps
           [Gimbal.HandleDown; Gimbal.WindowUp; Gimbal.WindowDown]).
  reflexivity.
Defined.

Lemma press_and_release_witness :
  (Gimbal.mouse
     (fst (Gimbal.run Scenario.resetProps Gimbal.initialRefs
             [Gimbal.HandleDown; Gimbal.WindowUp])) = MouseState.ACTIVE
   /\ Gimbal.click
        (fst (Gimbal.run Scenario.resetProps Gimbal.initialRefs
                [Gimbal.HandleDown; Gimbal.WindowUp])) = DragState.DRAG)
  /\ Gimbal.mouse
       (fst (Gimbal.run Scenario.resetProps Gimbal.initialRefs
               [Gimbal.HandleDown; Gimbal.WindowUp; Gimbal.WindowUp]))
     = MouseState.IDLE
  /\ (Gimbal.mouse
        (fst (Gimbal.run Scenario.resetProps Gimbal.initialRefs
                [Gimbal.HandleDown; Gimbal.TimerFires; Gimbal.WindowUp]))
      = MouseState.IDLE
      /\ Gimbal.click
           (fst (Gimbal.run Scenario.resetProps Gimbal.initialRefs
                   [Gimbal.HandleDown; Gimbal.TimerFires; Gimbal.WindowUp]))
         = DragState.IDLE)
  /\ Gimbal.mouse
       (fst (Gimbal.run Scenario.resetProps Gimbal.initialRefs
               [Gimbal.HandleDown; Gimbal.WindowDown])) = MouseState.IDLE.
Proof.
  apply (press_and_release Scenario.resetProps Gimbal.initialRefs).
  reflexivity.
Defined.

Lemma wait_ends_with_timer_witness :
  (0 < Gimbal.timeouts
         (fst (Gimbal.step Scenario.resetProps
                 (Gimbal.mounted Scenario.resetProps (Scenario.container 500) None)
                 Gimbal.HandleDown)))%nat
  /\ Gimbal.click
       (fst (Gimbal.step Scenario.resetProps
               (fst (Gimbal.step Scenario.resetProps
                       (Gimbal.mounted Scenario.resetProps
                          (Scenario.container 500) None)
                       Gimbal.HandleDown))
               Gimbal.TimerFires)) = DragState.IDLE
  /\ Gimbal.mouse
       (fst (Gimbal.step Scenario.resetProps
               (fst (Gimbal.step Scenario.resetProps
                       (Gimbal.mounted Scenario.resetProps
                          (Scenario.container 500) None)
                       Gimbal.HandleDown))
               Gimbal.TimerFires))
     = Gimbal.mouse
         (fst (Gimbal.step Scenario.resetProps
                 (Gimbal.mounted Scenario.resetProps (Scenario.container 500) None)
                 Gimbal.HandleDown)).
Proof.
  apply (wait_ends_with_timer Scenario.resetProps (Scenario.container 500) None).
  - apply Gimbal.reachable_step. apply Gimbal.reachable_mounted.
  - reflexivity.
Defined.

Lemma missing_anchor_collapses_witness :
  Forall (fun e => e = Trace.collapsed)
    (snd (Gimbal.run Cases.bothDefaultsProps
            (Gimbal.mounted Cases.bothDefaultsProps None None)
            [Gimbal.HandleDown; Gimbal.WindowMove (Cases.pointerAt 40 70);
             Gimbal.Render; Gimbal.DoubleClick; Gimbal.WindowResize None])).
Proof.
  apply (missing_anchor_collapses Cases.bothDefaultsProps); reflexivity.
Defined.

Lemma double_click_position_witness :
  Gimbal.handleDoubleClick Cases.bothDefaultsProps
    (Gimbal.mounted Cases.bothDefaultsProps (Scenario.container 500) None)
  = (Gimbal.setClick
       (Gimbal.mounted Cases.bothDefaultsProps (Scenario.container 500) None)
       DragState.IDLE,
     [Gimbal.getResizedValues
        (Gimbal.mounted Cases.bothDefaultsProps (Scenario.container 500) None)
        120]).
Proof.
  apply (double_click_position Cases.bothDefaultsProps); [reflexivity |].
  left. discriminate.
Defined.
